(** * Plane-shape explorer (app.py): geometry functions and quiz session state

    A shallow embedding of the computational core of [app.py]:
    - the drawing functions [draw_triangle], [draw_parallelogram],
      [draw_rectangle], [draw_circle] and the shape dispatch of tab 1;
    - the quiz handlers of tab 3 acting on [st.session_state].

    Python floats are idealised as real numbers ([R]): [math.sin],
    [math.cos], [math.tan] are the real functions, [math.radians] and
    [math.degrees] multiply by [PI/180] and [180/PI], and the literal
    [1e-6] is the real [1/10^6].  Rounding is therefore outside the model;
    control flow, the formulas applied and the division-by-zero behaviour
    are the code's. *)

From Stdlib Require Import Reals Lra Lia List ZArith.
From stdpp Require Import base gmap strings pretty.
Import ListNotations.

(** ** Python outcomes: a value or a raised exception *)

Inductive py (A : Type) : Type :=
| Ok (a : A)
| ZeroDivisionError
| KeyError (k : string).
Arguments Ok {A} a.
Arguments ZeroDivisionError {A}.
Arguments KeyError {A} k.

#[global] Instance py_ret : MRet py := fun A a => Ok a.
#[global] Instance py_bind : MBind py := fun A B f m =>
  match m with
  | Ok a => f a
  | ZeroDivisionError => ZeroDivisionError
  | KeyError k => KeyError k
  end.

(** ** Geometry engine *)

Module Geometry.
Local Open Scope R_scope.

Definition point : Type := (R * R)%type.

(** [math.radians], [math.degrees] *)
Definition radians (x : R) : R := x * (PI / 180).
Definition degrees (x : R) : R := x * (180 / PI).

(** Float division [x / y]: raises [ZeroDivisionError] when [y] is zero. *)
Definition py_div (x y : R) : py R :=
  if Req_dec_T y 0 then ZeroDivisionError else Ok (x / y).

(** [math.atan2(y, x)] on finite arguments, by quadrant. *)
Definition atan2 (y x : R) : R :=
  if Rlt_dec 0 x then atan (y / x)
  else if Rlt_dec x 0 then
         (if Rle_dec 0 y then atan (y / x) + PI else atan (y / x) - PI)
  else if Rlt_dec 0 y then PI / 2
  else if Rlt_dec y 0 then - (PI / 2)
  else 0.


(** [draw_triangle(base, alpha_deg, beta_deg)]: [Ok None] is the code's
    [return None]. *)
Definition draw_triangle (base alpha_deg beta_deg : R) : py (option (list point)) :=
  let alpha := radians alpha_deg in
  let beta := radians beta_deg in
  let gamma := radians (180 - alpha_deg - beta_deg) in
  if Rle_dec gamma 0 then Ok None
  else
    let c := base in
    s ← py_div c (sin gamma);
    let a := s * sin alpha in
    let b := s * sin beta in
    let A := (0, 0) in
    let B := (c, 0) in
    let C := (b * cos alpha, b * sin alpha) in
    Ok (Some [A; B; C]).

(** The threshold [1e-6] of [draw_parallelogram]. *)
Definition eps : R := 1 / 1000000.

(** The shear offset of [draw_parallelogram] (line 96):
    [height / math.tan(angle) if abs(math.tan(angle)) > 1e-6 else 0.0].
    At an odd multiple of 90 degrees the real tangent does not exist and
    [tan] is 0 here, where the float tangent is a large finite number; the
    sliders (0..80 degrees) and the rhombus angle (strictly between 0 and
    90 degrees for positive sides) never reach such an angle. *)
Definition shear_dx (height angle : R) : py R :=
  if Rgt_dec (Rabs (tan angle)) eps
  then py_div height (tan angle) else Ok 0.

(** [draw_parallelogram(width, height, angle_deg)] *)
Definition draw_parallelogram (width height angle_deg : R) : py (list point) :=
  let angle := radians angle_deg in
  let A := (0, 0) in
  let B := (width, 0) in
  dx ← shear_dx height angle;
  let D := (dx, height) in
  let C := (width + dx, height) in
  Ok [A; B; C; D].

(** [draw_rectangle(width, height)] *)
Definition draw_rectangle (width height : R) : list point :=
  let A := (0, 0) in
  let B := (width, 0) in
  let C := (width, height) in
  let D := (0, height) in
  [A; B; C; D].

(** [y[-1] = stop]: overwrite the last element of an array. *)
Fixpoint set_last (l : list R) (v : R) : list R :=
  match l with
  | [] => []
  | [_] => [v]
  | x :: tl => x :: set_last tl v
  end.

(** [np.linspace(start, stop, num)] with the default [endpoint=True]:
    [arange(0, num) * step + start] with [step = (stop - start) / (num - 1)],
    the last sample then set to [stop]; for [num <= 1] there is no step
    and the samples are [arange(0, num) * (stop - start) + start]. *)
Definition linspace (start stop : R) (num : nat) : list R :=
  let div := (num - 1)%nat in
  let delta := stop - start in
  let y := map INR (seq 0 num) in
  let y := if (0 <? div)%nat
           then map (fun v => v * (delta / INR div)) y
           else map (fun v => v * delta) y in
  let y := map (fun v => v + start) y in
  if (1 <? num)%nat then set_last y stop else y.

(** [draw_circle(radius, num_points=80)]: the pair [(xs, ys)]. *)
Definition draw_circle (radius : R) (num_points : nat) : list R * list R :=
  let thetas := linspace 0 (2 * PI) num_points in
  let xs := map (fun t => radius * cos t) thetas in
  let ys := map (fun t => radius * sin t) thetas in
  (xs, ys).

Definition default_num_points : nat := 80.

(** The points plotted from [(xs, ys)]. *)
Definition circle_points (radius : R) (num_points : nat) : list point :=
  let '(xs, ys) := draw_circle radius num_points in combine xs ys.

(** The tilt angle of the rhombus branch of tab 1:
    [math.degrees(math.atan2(height, side / 2 if side != 0 else 1))]. *)
Definition angle_for_rhombus (side height : R) : R :=
  degrees (atan2 height (if Req_dec_T side 0 then 1 else side / 2)).

(** The rhombus branch of tab 1. *)
Definition draw_rhombus (width height : R) : py (list point) :=
  let side := width in
  draw_parallelogram side height (angle_for_rhombus side height).

(** The shapes and the parameters the controls of tab 1 provide. *)
Inductive ShapeParameters : Type :=
| Triangle (base alpha beta : R)
| Rectangle (width height : R)
| Parallelogram (width height angle : R)
| Rhombus (width height : R)
| Circle (radius : R).

(** The shape dispatch of tab 1 (right column): [Ok None] is the branch
    that shows the warning, [Ok (Some pts)] the coordinates handed to the
    plot. *)
Definition computeOutline (p : ShapeParameters) : py (option (list point)) :=
  match p with
  | Triangle base alpha beta => draw_triangle base alpha beta
  | Rectangle width height => Ok (Some (draw_rectangle width height))
  | Parallelogram width height angle =>
      pts ← draw_parallelogram width height angle; Ok (Some pts)
  | Rhombus width height =>
      pts ← draw_rhombus width height; Ok (Some pts)
  | Circle radius => Ok (Some (circle_points radius default_num_points))
  end.

(** The slider ranges of tab 1 (minimum and maximum of each control). *)
Definition in_slider_range (p : ShapeParameters) : Prop :=
  match p with
  | Triangle base alpha beta =>
      1/2 <= base <= 8 /\ 5 <= alpha <= 170 /\ 5 <= beta <= 170
  | Rectangle width height =>
      1/2 <= width <= 8 /\ 1/2 <= height <= 6
  | Parallelogram width height angle =>
      1/2 <= width <= 8 /\ 1/2 <= height <= 6 /\ 0 <= angle <= 80
  | Rhombus width height =>
      1/2 <= width <= 8 /\ 1/2 <= height <= 6
  | Circle radius => 1/2 <= radius <= 5
  end.




End Geometry.

(** ** Quiz session state (tab 3) *)

Module Quiz.
Local Open Scope Z_scope.

(** Values the script stores in [st.session_state]: the integer counters
    and the boolean flags.  (Streamlit also stores the values of the keyed
    widgets [ox1..], [submit1..] there; the handlers never read or write
    those keys and they are left out.) *)
Inductive value : Type :=
| VInt (n : Z)
| VBool (b : bool).

(** Python truthiness, and the integer a value counts as in [+= 1]. *)
Definition truthy (v : value) : bool :=
  match v with
  | VInt n => negb (n =? 0)
  | VBool b => b
  end.

Definition as_int (v : value) : Z :=
  match v with
  | VInt n => n
  | VBool b => if b then 1 else 0
  end.

Abbreviation session_state := (gmap string value).

(** [st.session_state.get(k, default)] *)
Definition get (s : session_state) (k : string) (default : value) : value :=
  match s !! k with
  | Some v => v
  | None => default
  end.

(** [st.session_state[k] += 1]: [KeyError] when [k] is absent. *)
Definition incr (k : string) (s : session_state) : py session_state :=
  match s !! k with
  | Some v => Ok (<[k := VInt (as_int v + 1)]> s)
  | None => KeyError k
  end.

(** Lines 288-291: the counters are created when absent. *)
Definition init_session (s : session_state) : session_state :=
  let s := match s !! "score" with
           | None => <["score" := VInt 0]> s
           | Some _ => s
           end in
  match s !! "total" with
  | None => <["total" := VInt 0]> s
  | Some _ => s
  end.

(** Lines 320-330: the body of the name-quiz button. *)
Definition name_handler (answer quiz_choice : string) (s : session_state)
  : py session_state :=
  if negb (truthy (get s "answered_name" (VBool false))) then
    s ← incr "total" s;
    let s := <["answered_name" := VBool true]> s in
    if String.eqb answer quiz_choice then incr "score" s else Ok s
  else Ok s.

(** Lines 346-359: the body of the [i]-th OX button. *)
Definition ox_handler (i : nat) (choice : string) (correct : bool)
  (s : session_state) : py session_state :=
  let answered_key := "answered_" +:+ pretty i in
  if negb (truthy (get s answered_key (VBool false))) then
    s ← incr "total" s;
    let s := <[answered_key := VBool true]> s in
    let picked := if String.eqb choice "O" then true else false in
    if Bool.eqb picked correct then incr "score" s else Ok s
  else Ok s.

(** The OX questions: statement, correct answer, hint. *)
Definition ox_qs : list (string * bool * string) :=
  [ ("정사각형은 항상 직사각형이다.", true,
     "정사각형은 네 각이 모두 직각이므로 직사각형이에요.");
    ("모든 평행사변형은 사다리꼴이다.", true,
     "사다리꼴은 한 쌍만 평행해도 되므로, 평행사변형은 사다리꼴의 일종이에요.");
    ("모든 마름모는 직사각형이다.", false,
     "마름모는 네 변의 길이가 같지만 각이 직각일 필요는 없어요.") ].

(** The widget values of one run of the script: the figure shown and the
    name selected in question 1, which buttons report a click, and the O/X
    choice of each OX question. *)
Record widgets : Type := {
  quiz_choice : string;
  answer : string;
  check_clicked : bool;
  ox_choice : nat -> string;
  submit_clicked : nat -> bool
}.

(** [for i, (q, correct, hint) in enumerate(ox_qs, 1)] *)
Fixpoint ox_loop (w : widgets) (i : nat) (qs : list (string * bool * string))
  (s : session_state) : py session_state :=
  match qs with
  | [] => Ok s
  | (_, correct, _) :: qs' =>
      s ← (if submit_clicked w i
           then ox_handler i (ox_choice w i) correct s else Ok s);
      ox_loop w (S i) qs' s
  end.

(** One run of tab 3. *)
Definition run_quiz (w : widgets) (s : session_state) : py session_state :=
  let s := init_session s in
  s ← (if check_clicked w
       then name_handler (answer w) (quiz_choice w) s else Ok s);
  ox_loop w 1%nat ox_qs s.

(** A session: the script runs once per interaction, on the state the
    previous run left. *)
Fixpoint run_session (ws : list widgets) (s : session_state)
  : py session_state :=
  match ws with
  | [] => Ok s
  | w :: ws' => s ← run_quiz w s; run_session ws' s
  end.

(** The state of a session after the counters are created: no flag set. *)
Definition initial_state : session_state := init_session ∅.

(** The questions and the flag each one owns. *)
Inductive question : Type :=
| QName
| QOx (i : nat).

Definition answered_key (q : question) : string :=
  match q with
  | QName => "answered_name"
  | QOx i => "answered_" +:+ pretty i
  end.

Definition answered (s : session_state) (q : question) : bool :=
  truthy (get s (answered_key q) (VBool false)).

(** One answer submission: the handler of the question's button, with the
    widget values it reads. *)
Inductive submission : Type :=
| SubmitName (answer quiz_choice : string)
| SubmitOx (i : nat) (choice : string) (correct : bool).

Definition question_of (e : submission) : question :=
  match e with
  | SubmitName _ _ => QName
  | SubmitOx i _ _ => QOx i
  end.

Definition is_correct (e : submission) : bool :=
  match e with
  | SubmitName answer quiz_choice => String.eqb answer quiz_choice
  | SubmitOx _ choice correct =>
      Bool.eqb (if String.eqb choice "O" then true else false) correct
  end.

Definition submitAnswer (e : submission) (s : session_state)
  : py session_state :=
  match e with
  | SubmitName answer quiz_choice => name_handler answer quiz_choice s
  | SubmitOx i choice correct => ox_handler i choice correct s
  end.

(** A sequence of submissions, each on the state the previous one left. *)
Fixpoint submit_all (es : list submission) (s : session_state)
  : py session_state :=
  match es with
  | [] => Ok s
  | e :: es' => s ← submitAnswer e s; submit_all es' s
  end.

(** The submissions one run of the script performs, in the order of the
    page: the name quiz first, then the OX questions. *)
Fixpoint ox_submissions (w : widgets) (i : nat)
  (qs : list (string * bool * string)) : list submission :=
  match qs with
  | [] => []
  | (_, correct, _) :: qs' =>
      (if submit_clicked w i then [SubmitOx i (ox_choice w i) correct] else [])
      ++ ox_submissions w (S i) qs'
  end.

Definition submissions_of (w : widgets) : list submission :=
  (if check_clicked w then [SubmitName (answer w) (quiz_choice w)] else [])
  ++ ox_submissions w 1%nat ox_qs.

(** The counters read back as integers. *)
Definition counters (s : session_state) (score total : Z) : Prop :=
  s !! "score" = Some (VInt score) /\ s !! "total" = Some (VInt total).

(** The options of two widgets of tab 3: the radio that picks the figure
    and the selectbox of the answer (its first entry is the placeholder). *)
Definition quiz_options : list string := ["삼각형"; "사각형"; "원"].
Definition answer_options : list string :=
  ["선택하세요"; "삼각형"; "사각형"; "원"].

(** The questions the page shows: the name quiz and one OX question per
    entry of [ox_qs], numbered from 1. *)
Definition questions : list question :=
  QName :: map QOx (seq 1 (length ox_qs)).

(** The number of questions whose flag is set. *)
Definition answered_count (s : session_state) : Z :=
  fold_right (fun q n => (if answered s q then 1 else 0) + n) 0 questions.

End Quiz.

(** ** Facts about the geometry engine *)

Module GeometryFacts.
Import Geometry.
Local Open Scope R_scope.

Lemma radians_sign (x : R) : (0 < x -> 0 < radians x) /\ (x <= 0 -> radians x <= 0).
Proof.
  unfold radians. pose proof PI_RGT_0 as Hpi.
  assert (Hk : 0 < PI / 180) by (apply Rdiv_lt_0_compat; lra).
  split; intros Hx; nra.
Qed.


Lemma radians_lt_PI (x : R) : x < 180 -> radians x < PI.
Proof.
  intros Hx. unfold radians. pose proof PI_RGT_0 as Hpi.
  replace PI with (180 * (PI / 180)) at 2 by field.
  apply Rmult_lt_compat_r; [apply Rdiv_lt_0_compat|]; lra.
Qed.

(** The third angle of a triangle whose two input angles are positive and
    sum to less than 180 degrees lies strictly between 0 and PI. *)
Lemma gamma_range (a b : R) :
  0 < a -> 0 < b -> a + b < 180 ->
  0 < radians (180 - a - b) < PI.
Proof.
  intros Ha Hb Hab. split.
  - apply radians_sign. lra.
  - apply radians_lt_PI. lra.
Qed.

Lemma py_div_ok (x y : R) : y <> 0 -> py_div x y = Ok (x / y).
Proof. intros Hy. unfold py_div. destruct (Req_dec_T y 0); [contradiction|reflexivity]. Qed.

Lemma py_div_zero (x : R) : py_div x 0 = ZeroDivisionError.
Proof. unfold py_div. destruct (Req_dec_T 0 0); [reflexivity|congruence]. Qed.

(** Unfolding of [draw_triangle] on the branch that computes vertices. *)
Lemma draw_triangle_vertices (base a b : R) :
  0 < radians (180 - a - b) ->
  sin (radians (180 - a - b)) <> 0 ->
  draw_triangle base a b =
    Ok (Some [ (0, 0); (base, 0);
               (base / sin (radians (180 - a - b)) * sin (radians b) * cos (radians a),
                base / sin (radians (180 - a - b)) * sin (radians b) * sin (radians a)) ]).
Proof.
  intros Hg Hs. unfold draw_triangle.
  destruct (Rle_dec (radians (180 - a - b)) 0) as [Hle|_]; [lra|].
  rewrite (py_div_ok _ _ Hs). reflexivity.
Qed.

(** C5: two angles summing to 180 degrees or more give the [None] result,
    never vertex coordinates, whatever the base length. *)
Theorem draw_triangle_degenerate (base a b : R) :
  a + b >= 180 ->
  draw_triangle base a b = Ok None /\
  forall pts, draw_triangle base a b <> Ok (Some pts).
Proof.
  intros Hab.
  assert (H : draw_triangle base a b = Ok None).
  { unfold draw_triangle.
    destruct (Rle_dec (radians (180 - a - b)) 0) as [_|Hn]; [reflexivity|].
    exfalso. apply Hn. apply radians_sign. lra. }
  split; [exact H|]. intros pts. rewrite H. discriminate.
Qed.

Lemma draw_triangle_degenerate_witness :
  draw_triangle 4 100 90 = Ok None /\
  forall pts, draw_triangle 4 100 90 <> Ok (Some pts).
Proof. apply draw_triangle_degenerate. lra. Defined.






(** The algebra behind the law of sines, with the sines and cosines of the
    two input angles as unknowns tied by [sin^2 + cos^2 = 1]. *)
Section TriangleAlgebra.
Variables s sa ca sb cb : R.
Hypothesis Ha : sa * sa + ca * ca = 1.
Hypothesis Hb : sb * sb + cb * cb = 1.

Let sg := sa * cb + ca * sb.
Let c := s * sg.





End TriangleAlgebra.




(** *** Parallelogram, rectangle and rhombus *)

Lemma eps_pos : 0 < eps.
Proof. unfold eps. lra. Qed.

(** The guard of [shear_dx] keeps the division away from zero: the
    function never raises. *)
Lemma shear_dx_total (height angle : R) :
  shear_dx height angle =
    Ok (if Rgt_dec (Rabs (tan angle)) eps then height / tan angle else 0).
Proof.
  unfold shear_dx. destruct (Rgt_dec (Rabs (tan angle)) eps) as [Hgt|_]; [|reflexivity].
  apply py_div_ok. intros Hz. rewrite Hz, Rabs_R0 in Hgt.
  pose proof eps_pos. lra.
Qed.

Lemma draw_parallelogram_total (width height angle_deg : R) :
  exists dx,
    shear_dx height (radians angle_deg) = Ok dx /\
    draw_parallelogram width height angle_deg =
      Ok [ (0, 0); (width, 0); (width + dx, height); (dx, height) ].
Proof.
  eexists. split; [apply shear_dx_total|].
  unfold draw_parallelogram. rewrite shear_dx_total. reflexivity.
Qed.

Lemma tan_radians_0 : tan (radians 0) = 0.
Proof. unfold radians. rewrite Rmult_0_l. apply tan_0. Qed.

(** C8: when the tangent of the tilt angle is at most [1e-6] in absolute
    value, the shear offset is 0 and the parallelogram outline is the
    rectangle outline [(0,0), (width,0), (width,height), (0,height)];
    the tilt angle 0 is such an angle. *)
Theorem draw_parallelogram_flat (width height tilt : R) :
  0 < width -> 0 < height ->
  Rabs (tan (radians tilt)) <= eps ->
  shear_dx height (radians tilt) = Ok 0 /\
  draw_parallelogram width height tilt = Ok (draw_rectangle width height) /\
  draw_rectangle width height =
    [ (0, 0); (width, 0); (width, height); (0, height) ] /\
  Rabs (tan (radians 0)) <= eps /\
  draw_parallelogram width height 0 = Ok (draw_rectangle width height).
Proof.
  intros _ _ Htan.
  assert (Hflat : forall t, Rabs (tan (radians t)) <= eps ->
            shear_dx height (radians t) = Ok 0 /\
            draw_parallelogram width height t = Ok (draw_rectangle width height)).
  { intros t Ht.
    assert (Hdx : shear_dx height (radians t) = Ok 0).
    { unfold shear_dx. destruct (Rgt_dec (Rabs (tan (radians t))) eps); [lra|reflexivity]. }
    split; [exact Hdx|].
    unfold draw_parallelogram. rewrite Hdx. simpl.
    unfold draw_rectangle. rewrite Rplus_0_r. reflexivity. }
  assert (H0 : Rabs (tan (radians 0)) <= eps).
  { rewrite tan_radians_0, Rabs_R0. pose proof eps_pos. lra. }
  destruct (Hflat tilt Htan) as [Hdx Hpar].
  destruct (Hflat 0 H0) as [_ Hpar0].
  repeat split; assumption || reflexivity.
Qed.

Lemma draw_parallelogram_flat_witness :
  (0 < 4 /\ 0 < 2 /\ Rabs (tan (radians 0)) <= eps) /\
  shear_dx 2 (radians 0) = Ok 0 /\
  draw_parallelogram 4 2 0 = Ok (draw_rectangle 4 2) /\
  draw_rectangle 4 2 = [ (0, 0); (4, 0); (4, 2); (0, 2) ] /\
  Rabs (tan (radians 0)) <= eps /\
  draw_parallelogram 4 2 0 = Ok (draw_rectangle 4 2).
Proof.
  assert (H0 : Rabs (tan (radians 0)) <= eps).
  { rewrite tan_radians_0, Rabs_R0. unfold eps. lra. }
  split; [repeat split; (lra || exact H0)|].
  apply (draw_parallelogram_flat 4 2 0); [lra | lra | exact H0].
Defined.

Lemma atan2_pos_x (y x : R) : 0 < x -> atan2 y x = atan (y / x).
Proof. intros Hx. unfold atan2. destruct (Rlt_dec 0 x); [reflexivity|contradiction]. Qed.

(** C9: the rhombus outline is the parallelogram outline for
    [width = side] and the tilt angle [degrees (atan2 height (side / 2))],
    the second argument of [atan2] being 1 instead of [side / 2] when
    [side = 0]. *)
Theorem draw_rhombus_as_parallelogram (side height : R) :
  draw_rhombus side height =
    draw_parallelogram side height (angle_for_rhombus side height) /\
  (side <> 0 ->
   angle_for_rhombus side height = degrees (atan2 height (side / 2))) /\
  (side = 0 ->
   angle_for_rhombus side height = degrees (atan2 height 1) /\
   draw_rhombus side height =
     draw_parallelogram 0 height (degrees (atan height))).
Proof.
  split; [reflexivity|]. unfold draw_rhombus, angle_for_rhombus. split.
  - intros Hs. destruct (Req_dec_T side 0); [contradiction|reflexivity].
  - intros Hs. destruct (Req_dec_T side 0); [|contradiction]. subst side.
    split; [reflexivity|].
    rewrite atan2_pos_x by lra. rewrite Rdiv_1_r. reflexivity.
Qed.

(** With positive side and height the tilt angle has tangent
    [2 * height / side], so the top edge is shifted by [side / 2]. *)
Lemma draw_rhombus_outline (side height : R) :
  0 < side -> 0 < height -> 2 * height / side > eps ->
  draw_rhombus side height =
    Ok [ (0, 0); (side, 0); (side + side / 2, height); (side / 2, height) ].
Proof.
  intros Hs Hh Hbig.
  unfold draw_rhombus, draw_parallelogram, angle_for_rhombus.
  destruct (Req_dec_T side 0) as [E|_]; [lra|].
  rewrite atan2_pos_x by lra.
  assert (Hrad : radians (degrees (atan (height / (side / 2)))) = atan (2 * height / side)).
  { unfold radians, degrees. pose proof PI_RGT_0.
    replace (height / (side / 2)) with (2 * height / side) by (field; lra).
    field. lra. }
  rewrite Hrad, shear_dx_total, tan_atan.
  assert (Hpos : 0 < 2 * height / side) by (pose proof eps_pos; lra).
  destruct (Rgt_dec (Rabs (2 * height / side)) eps) as [_|Hn].
  - simpl. replace (height / (2 * height / side)) with (side / 2) by (field; lra).
    reflexivity.
  - exfalso. apply Hn. rewrite Rabs_pos_eq; lra.
Qed.

(** *** Circle *)

Lemma set_last_length (l : list R) (v : R) : length (set_last l v) = length l.
Proof.
  induction l as [|x [|x' tl] IH]; simpl in *; try reflexivity.
  f_equal. exact IH.
Qed.


Lemma linspace_length (start stop : R) (num : nat) :
  length (linspace start stop num) = num.
Proof.
  unfold linspace.
  assert (H : forall f g : R -> R,
             length (map g (map f (map INR (seq 0 num)))) = num).
  { intros f g. rewrite !length_map. apply length_seq. }
  destruct (1 <? num)%nat; [rewrite set_last_length|];
    destruct (0 <? num - 1)%nat; apply H.
Qed.


Lemma circle_points_length (radius : R) (n : nat) :
  length (circle_points radius n) = n.
Proof.
  unfold circle_points, draw_circle, point. cbv beta iota zeta.
  rewrite length_combine, !length_map, linspace_length. apply Nat.min_id.
Qed.




(** *** The shape dispatch and the validator's conditions *)





End GeometryFacts.

(** ** Facts about the quiz session state *)

Module QuizFacts.
Import Quiz.
Local Open Scope Z_scope.

Lemma py_bind_Ok {A B : Type} (a : A) (f : A -> py B) : (Ok a ≫= f) = f a.
Proof. reflexivity. Qed.

Lemma answered_key_not_counter (q : question) :
  answered_key q <> "score" /\ answered_key q <> "total".
Proof. destruct q; simpl; split; discriminate. Qed.

Lemma counters_fresh : counters initial_state 0 0.
Proof. split; reflexivity. Qed.

Lemma initial_state_unanswered (q : question) : answered initial_state q = false.
Proof.
  destruct (answered_key_not_counter q) as [Hs Ht].
  unfold answered, get, initial_state, init_session.
  rewrite lookup_empty. rewrite lookup_insert_ne by discriminate.
  rewrite lookup_empty.
  rewrite !lookup_insert_ne by congruence.
  rewrite lookup_empty. reflexivity.
Qed.

(** When both counters exist the creation block changes nothing. *)
Lemma init_session_id (s : session_state) (sc tot : Z) :
  counters s sc tot -> init_session s = s.
Proof.
  intros [Hs Ht]. unfold init_session. rewrite Hs, Ht. reflexivity.
Qed.

Lemma incr_ok (k : string) (s : session_state) (v : value) :
  s !! k = Some v -> incr k s = Ok (<[k := VInt (as_int v + 1)]> s).
Proof. intros H. unfold incr. rewrite H. reflexivity. Qed.

(** Both handlers have one shape, read off the question's flag. *)
Lemma submitAnswer_unfold (e : submission) (s : session_state) :
  submitAnswer e s =
    if negb (answered s (question_of e)) then
      s1 ← incr "total" s;
      let s2 := <[answered_key (question_of e) := VBool true]> s1 in
      if is_correct e then incr "score" s2 else Ok s2
    else Ok s.
Proof. destruct e; reflexivity. Qed.

(** The state a first submission leaves. *)
Lemma submitAnswer_first (e : submission) (s : session_state) (sc tot : Z) :
  counters s sc tot ->
  answered s (question_of e) = false ->
  submitAnswer e s =
    Ok (let s2 := <[answered_key (question_of e) := VBool true]>
                    (<["total" := VInt (tot + 1)]> s) in
        if is_correct e then <["score" := VInt (sc + 1)]> s2 else s2).
Proof.
  intros [Hs Ht] Hq. rewrite submitAnswer_unfold, Hq. simpl negb. cbv iota.
  destruct (answered_key_not_counter (question_of e)) as [Hks Hkt].
  rewrite (incr_ok "total" s _ Ht), py_bind_Ok. cbv zeta.
  destruct (is_correct e); [|reflexivity].
  simpl as_int. apply (incr_ok "score" _ (VInt sc)).
  rewrite lookup_insert_ne by congruence.
  rewrite lookup_insert_ne by discriminate. exact Hs.
Qed.

Lemma submitAnswer_again (e : submission) (s : session_state) :
  answered s (question_of e) = true -> submitAnswer e s = Ok s.
Proof. intros Hq. rewrite submitAnswer_unfold, Hq. reflexivity. Qed.


(** What a first submission changes: the question's flag and the
    counters, and no other key. *)
Lemma submitAnswer_first_effect (e : submission) (s : session_state) (sc tot : Z) :
  counters s sc tot ->
  answered s (question_of e) = false ->
  exists s',
    submitAnswer e s = Ok s' /\
    s' !! answered_key (question_of e) = Some (VBool true) /\
    counters s' (if is_correct e then sc + 1 else sc) (tot + 1) /\
    forall k, k <> answered_key (question_of e) -> k <> "score" -> k <> "total" ->
              s' !! k = s !! k.
Proof.
  intros Hc Hq. eexists. split; [apply (submitAnswer_first e s sc tot Hc Hq)|].
  destruct Hc as [Hs Ht].
  destruct (answered_key_not_counter (question_of e)) as [Hks Hkt].
  cbv zeta. destruct (is_correct e).
  - split; [|split; [split|]].
    + rewrite lookup_insert_ne by congruence. apply lookup_insert_eq.
    + apply lookup_insert_eq.
    + rewrite lookup_insert_ne by discriminate.
      rewrite lookup_insert_ne by congruence. apply lookup_insert_eq.
    + intros k Hk Hks' Hkt'. rewrite !lookup_insert_ne by congruence. reflexivity.
  - split; [|split; [split|]].
    + apply lookup_insert_eq.
    + rewrite !lookup_insert_ne by (congruence || discriminate). exact Hs.
    + rewrite lookup_insert_ne by congruence. apply lookup_insert_eq.
    + intros k Hk Hks' Hkt'. rewrite !lookup_insert_ne by congruence. reflexivity.
Qed.

Lemma answered_lookup (s : session_state) (q : question) :
  s !! answered_key q = Some (VBool true) -> answered s q = true.
Proof. intros H. unfold answered, get. rewrite H. reflexivity. Qed.

(** One submission, in any state that has its counters: it succeeds, the
    counters do not decrease, [score] grows by at most what [total] grows
    by, and no flag that was set is cleared. *)
Lemma submitAnswer_step (e : submission) (s : session_state) (sc tot : Z) :
  counters s sc tot ->
  exists s' sc' tot',
    submitAnswer e s = Ok s' /\ counters s' sc' tot' /\
    sc <= sc' /\ tot <= tot' /\ sc' - sc <= tot' - tot /\
    forall q, answered s q = true -> answered s' q = true.
Proof.
  intros Hc. destruct (answered s (question_of e)) eqn:Hq.
  - exists s, sc, tot. rewrite (submitAnswer_again e s Hq).
    repeat split; try (apply Hc); try lia. auto.
  - destruct (submitAnswer_first_effect e s sc tot Hc Hq)
      as (s' & Hrun & Hflag & Hc' & Hother).
    exists s', (if is_correct e then sc + 1 else sc), (tot + 1).
    split; [exact Hrun|]. split; [exact Hc'|].
    repeat split; try (destruct (is_correct e); lia).
    intros q Hans.
    destruct (decide (answered_key q = answered_key (question_of e))) as [E|N].
    + unfold answered, get. rewrite E, Hflag. reflexivity.
    + destruct (answered_key_not_counter q) as [Hks Hkt].
      unfold answered, get. rewrite (Hother _ N Hks Hkt). exact Hans.
Qed.

(** The same along a sequence of submissions. *)
Lemma submit_all_steps (es : list submission) (s : session_state) (sc tot : Z) :
  counters s sc tot ->
  exists s' sc' tot',
    submit_all es s = Ok s' /\ counters s' sc' tot' /\
    sc <= sc' /\ tot <= tot' /\ sc' - sc <= tot' - tot /\
    forall q, answered s q = true -> answered s' q = true.
Proof.
  revert s sc tot. induction es as [|e es IH]; intros s sc tot Hc.
  - exists s, sc, tot. repeat split; try (apply Hc); try lia. auto.
  - destruct (submitAnswer_step e s sc tot Hc)
      as (s1 & sc1 & tot1 & Hrun1 & Hc1 & Hs1 & Ht1 & Hd1 & Hf1).
    destruct (IH s1 sc1 tot1 Hc1)
      as (s2 & sc2 & tot2 & Hrun2 & Hc2 & Hs2 & Ht2 & Hd2 & Hf2).
    exists s2, sc2, tot2. simpl. rewrite Hrun1, py_bind_Ok.
    repeat split; try (apply Hc2); try lia; auto.
Qed.

Lemma submit_all_app (es1 es2 : list submission) (s : session_state) :
  submit_all (es1 ++ es2) s = (submit_all es1 s ≫= submit_all es2).
Proof.
  revert s. induction es1 as [|e es1 IH]; intros s; [reflexivity|].
  simpl. destruct (submitAnswer e s) as [s1| |k]; simpl; auto.
Qed.

(** A run of the script is the creation block followed by the
    submissions of the buttons that report a click. *)
Lemma ox_loop_submissions (w : widgets) (qs : list (string * bool * string))
  (i : nat) (s : session_state) :
  ox_loop w i qs s = submit_all (ox_submissions w i qs) s.
Proof.
  revert i s. induction qs as [|[[q correct] hint] qs IH]; intros i s; [reflexivity|].
  simpl. destruct (submit_clicked w i); simpl.
  - destruct (ox_handler i (ox_choice w i) correct s) as [s1| |k]; simpl; auto.
  - apply IH.
Qed.

Lemma run_quiz_submissions (w : widgets) (s : session_state) :
  run_quiz w s = submit_all (submissions_of w) (init_session s).
Proof.
  unfold run_quiz, submissions_of. cbv zeta. destruct (check_clicked w).
  - cbn [app submit_all submitAnswer].
    destruct (name_handler (answer w) (quiz_choice w) (init_session s))
      as [s1| |k]; [|reflexivity..].
    rewrite !py_bind_Ok. apply ox_loop_submissions.
  - rewrite py_bind_Ok. cbn [app]. apply ox_loop_submissions.
Qed.

Lemma run_session_submissions (ws : list widgets) (s : session_state) (sc tot : Z) :
  counters s sc tot ->
  run_session ws s = submit_all (concat (map submissions_of ws)) s.
Proof.
  revert s sc tot. induction ws as [|w ws IH]; intros s sc tot Hc; [reflexivity|].
  simpl. rewrite submit_all_app, run_quiz_submissions, (init_session_id s sc tot Hc).
  destruct (submit_all_steps (submissions_of w) s sc tot Hc)
    as (s1 & sc1 & tot1 & Hrun1 & Hc1 & _).
  rewrite Hrun1, !py_bind_Ok. apply (IH s1 sc1 tot1 Hc1).
Qed.


(** Distinct questions own distinct flags: the decimal rendering of an
    index is never the word [name], and it determines the index. *)
Lemma pretty_N_go_ne_name (x : N) (s : string) :
  s <> "name" -> pretty_N_go x s <> "name".
Proof.
  revert s. induction (N.lt_wf_0 x) as [x _ IH]. intros s Hs.
  destruct (decide (x = 0)%N) as [->|Hx].
  - rewrite pretty_N_go_0. exact Hs.
  - rewrite pretty_N_go_step by lia. apply IH.
    + apply N.div_lt; lia.
    + unfold pretty_N_char. repeat case_match; discriminate.
Qed.

Lemma pretty_nat_ne_name (i : nat) : pretty i <> "name".
Proof.
  unfold pretty, pretty_nat, pretty, pretty_N.
  case_decide; [discriminate|]. apply pretty_N_go_ne_name. discriminate.
Qed.

Lemma answered_key_inj (q q' : question) :
  answered_key q = answered_key q' -> q = q'.
Proof.
  destruct q as [|i], q' as [|j]; simpl; intros H.
  - reflexivity.
  - exfalso. injection H as H. symmetry in H. exact (pretty_nat_ne_name j H).
  - exfalso. injection H as H. exact (pretty_nat_ne_name i H).
  - injection H as H. f_equal. apply (inj pretty). exact H.
Qed.

(** C3: in a state whose counters exist, the first submission for a
    question sets its flag, adds 1 to [total] and adds 1 to [score] exactly
    when the answer is correct, leaving the other questions' flags as they
    were; once the flag is set, whatever submissions follow, the flag stays
    set and a submission for that question returns the state unchanged. *)
Theorem submitAnswer_counts_once (q : question) (s : session_state) (sc tot : Z) :
  counters s sc tot ->
  (answered s q = false ->
   forall e, question_of e = q ->
     exists s',
       submitAnswer e s = Ok s' /\
       answered s' q = true /\
       counters s' (if is_correct e then sc + 1 else sc) (tot + 1) /\
       forall q', q' <> q -> s' !! answered_key q' = s !! answered_key q') /\
  (answered s q = true ->
   forall es, exists s',
     submit_all es s = Ok s' /\
     answered s' q = true /\
     forall e, question_of e = q -> submitAnswer e s' = Ok s').
Proof.
  intros Hc. split.
  - intros Hq e <-.
    destruct (submitAnswer_first_effect e s sc tot Hc Hq)
      as (s' & Hrun & Hflag & Hc' & Hother).
    exists s'. split; [exact Hrun|]. split; [apply answered_lookup, Hflag|].
    split; [exact Hc'|].
    intros q' Hne. destruct (answered_key_not_counter q') as [Hks Hkt].
    apply Hother; try assumption.
    intros E. apply Hne. apply answered_key_inj. exact E.
  - intros Hq es.
    destruct (submit_all_steps es s sc tot Hc)
      as (s' & sc' & tot' & Hrun & _ & _ & _ & _ & Hflags).
    exists s'. split; [exact Hrun|]. split; [apply Hflags, Hq|].
    intros e <-. apply submitAnswer_again. apply Hflags, Hq.
Qed.

Lemma submitAnswer_counts_once_witness :
  counters initial_state 0 0 /\
  (answered initial_state QName = false ->
   forall e, question_of e = QName ->
     exists s',
       submitAnswer e initial_state = Ok s' /\
       answered s' QName = true /\
       counters s' (if is_correct e then 0 + 1 else 0) (0 + 1) /\
       forall q', q' <> QName ->
                  s' !! answered_key q' = initial_state !! answered_key q').
Proof.
  split; [split; reflexivity|].
  apply (submitAnswer_counts_once QName initial_state 0 0).
  split; reflexivity.
Defined.

(** The scenario of a session: a correct answer to the name quiz gives
    (1, 1); answering it again changes nothing; a wrong answer to the first
    OX question gives (1, 2). *)
Example session_scenario :
  exists s1 s2 s3,
    submitAnswer (SubmitName "원" "원") initial_state = Ok s1 /\
    counters s1 1 1 /\
    submitAnswer (SubmitName "삼각형" "원") s1 = Ok s2 /\ s2 = s1 /\
    submitAnswer (SubmitOx 1 "X" true) s2 = Ok s3 /\
    counters s3 1 2.
Proof.
  do 3 eexists.
  split; [vm_compute; reflexivity|]. split; [split; reflexivity|].
  split; [vm_compute; reflexivity|]. split; [reflexivity|].
  split; [vm_compute; reflexivity|]. split; reflexivity.
Qed.

(** C4: from the initial state (score 0, total 0, no flag set) every
    finite sequence of submissions succeeds and leaves
    [0 <= score <= total]; a further submission never lowers [score] or
    [total]. *)
Theorem score_le_total (es : list submission) :
  counters initial_state 0 0 /\
  (forall q, answered initial_state q = false) /\
  exists s sc tot,
    submit_all es initial_state = Ok s /\
    counters s sc tot /\
    0 <= sc <= tot /\
    forall e, exists s' sc' tot',
      submitAnswer e s = Ok s' /\ counters s' sc' tot' /\
      sc <= sc' /\ tot <= tot' /\ 0 <= sc' <= tot'.
Proof.
  split; [exact counters_fresh|]. split; [exact initial_state_unanswered|].
  destruct (submit_all_steps es initial_state 0 0 counters_fresh)
    as (s & sc & tot & Hrun & Hc & Hs & Ht & Hd & _).
  exists s, sc, tot. split; [exact Hrun|]. split; [exact Hc|]. split; [lia|].
  intros e.
  destruct (submitAnswer_step e s sc tot Hc)
    as (s' & sc' & tot' & Hrun' & Hc' & Hs' & Ht' & Hd' & _).
  exists s', sc', tot'. repeat split; try (apply Hc'); try assumption; lia.
Qed.


(** Runs of the script, in any state that has its counters. *)
Lemma run_session_steps (ws : list widgets) (s : session_state) (sc tot : Z) :
  counters s sc tot ->
  exists s' sc' tot',
    run_session ws s = Ok s' /\ counters s' sc' tot' /\
    sc <= sc' /\ tot <= tot' /\
    forall q, answered s q = true -> answered s' q = true.
Proof.
  intros Hc. rewrite (run_session_submissions ws s sc tot Hc).
  destruct (submit_all_steps (concat (map submissions_of ws)) s sc tot Hc)
    as (s' & sc' & tot' & Hrun & Hc' & Hs & Ht & _ & Hflags).
  exists s', sc', tot'. auto.
Qed.

(** Against C2 as stated: after one correct answer to the name quiz the
    counters are 1 and 1 and the flag is set; no sequence of runs of the
    script brings the session back to score 0, total 0 and no flag. *)
Lemma reset_not_available :
  exists s1,
    submit_all [SubmitName "원" "원"] initial_state = Ok s1 /\
    counters s1 1 1 /\
    answered s1 QName = true /\
    forall ws, exists s' sc tot,
      run_session ws s1 = Ok s' /\ counters s' sc tot /\
      1 <= sc /\ 1 <= tot /\ answered s' QName = true /\
      run_session ws s1 <> Ok initial_state.
Proof.
  destruct (submitAnswer_first_effect (SubmitName "원" "원") initial_state 0 0
              counters_fresh (initial_state_unanswered QName))
    as (s1 & Hrun & Hflag & Hc & _).
  exists s1.
  assert (Hsub : submit_all [SubmitName "원" "원"] initial_state = Ok s1)
    by (cbn [submit_all]; rewrite Hrun; reflexivity).
  assert (Hans : answered s1 QName = true) by (apply answered_lookup, Hflag).
  assert (Hc1 : counters s1 1 1) by exact Hc.
  split; [exact Hsub|]. split; [exact Hc1|]. split; [exact Hans|].
  intros ws.
  destruct (run_session_steps ws s1 1 1 Hc1)
    as (s' & sc & tot & Hrun' & Hc' & Hs & Ht & Hflags).
  exists s', sc, tot. repeat split; try (apply Hc'); try assumption.
  - apply Hflags, Hans.
  - rewrite Hrun'. intros E. injection E as ->.
    destruct Hc' as [_ Htot]. destruct counters_fresh as [_ Htot0].
    rewrite Htot0 in Htot. injection Htot as <-. lia.
Qed.

(** C2 (as the code has it): there is no reset.  The counters are created
    as 0 only when absent, which gives the fresh state with no flag set;
    once they exist the creation block leaves the state alone, and no
    sequence of runs of the script lowers [score] or [total] or clears a
    flag. *)
Theorem session_never_reset (ws : list widgets) (s : session_state) (sc tot : Z) :
  counters s sc tot ->
  (counters (init_session ∅) 0 0 /\
   forall q, answered (init_session ∅) q = false) /\
  init_session s = s /\
  exists s' sc' tot',
    run_session ws s = Ok s' /\ counters s' sc' tot' /\
    sc <= sc' /\ tot <= tot' /\
    forall q, answered s q = true -> answered s' q = true.
Proof.
  intros Hc. split; [split; [exact counters_fresh | exact initial_state_unanswered]|].
  split; [exact (init_session_id s sc tot Hc)|].
  exact (run_session_steps ws s sc tot Hc).
Qed.

Lemma session_never_reset_witness :
  counters initial_state 0 0 /\
  init_session initial_state = initial_state /\
  exists s' sc' tot',
    run_session [] initial_state = Ok s' /\ counters s' sc' tot' /\
    0 <= sc' /\ 0 <= tot' /\
    forall q, answered initial_state q = true -> answered s' q = true.
Proof.
  assert (H : counters initial_state 0 0) by (split; reflexivity).
  split; [exact H|].
  apply (session_never_reset [] initial_state 0 0 H).
Defined.

End QuizFacts.

(** ** Further facts about the geometry engine *)

Module GeometryExtras.
Import Geometry GeometryFacts.
Local Open Scope R_scope.

(** *** The shape dispatch on the slider ranges *)

(** X6: for every parameter set the sliders can produce, the dispatch
    raises no exception; it takes the warning branch exactly for a triangle
    whose two angles sum to 180 degrees or more, and otherwise hands at
    least three points to the plot. *)
Theorem computeOutline_on_sliders (p : ShapeParameters) :
  in_slider_range p ->
  (computeOutline p = Ok None <->
   exists base a b, p = Triangle base a b /\ a + b >= 180) /\
  (computeOutline p = Ok None \/
   exists pts, computeOutline p = Ok (Some pts) /\ (3 <= length pts)%nat).
Proof.
  destruct p as [base a b|w h|w h t|w h|r]; simpl.
  - intros [_ [[Ha _] [Hb _]]].
    destruct (Rge_dec (a + b) 180) as [Hge|Hlt].
    + assert (E : draw_triangle base a b = Ok None).
      { unfold draw_triangle.
        destruct (Rle_dec (radians (180 - a - b)) 0) as [_|Hn]; [reflexivity|].
        exfalso. apply Hn. apply radians_sign. lra. }
      split; [|left; exact E].
      split; [intros _; exists base, a, b; split; [reflexivity|exact Hge]|].
      intros _. exact E.
    + assert (Hab : a + b < 180) by lra.
      destruct (gamma_range a b ltac:(lra) ltac:(lra) Hab) as [Hg0 HgPI].
      assert (Hs : 0 < sin (radians (180 - a - b))) by (apply sin_gt_0; assumption).
      assert (E := draw_triangle_vertices base a b Hg0 (Rgt_not_eq _ _ Hs)).
      split.
      * split; [rewrite E; discriminate|].
        intros (base' & a' & b' & Ep & Hge). injection Ep as -> -> ->. lra.
      * right. eexists. split; [exact E|]. simpl. lia.
  - intros _. split.
    + split; [discriminate|]. intros (? & ? & ? & Ep & _). discriminate.
    + right. eexists. split; [reflexivity|]. simpl. lia.
  - intros _. destruct (draw_parallelogram_total w h t) as [dx [_ E]]. rewrite E.
    split.
    + split; [discriminate|]. intros (? & ? & ? & Ep & _). discriminate.
    + right. eexists. split; [reflexivity|]. simpl. lia.
  - intros _.
    destruct (draw_parallelogram_total w h (angle_for_rhombus w h)) as [dx [_ E]].
    unfold draw_rhombus. rewrite E. split.
    + split; [discriminate|]. intros (? & ? & ? & Ep & _). discriminate.
    + right. eexists. split; [reflexivity|]. simpl. lia.
  - intros _. split.
    + split; [discriminate|]. intros (? & ? & ? & Ep & _). discriminate.
    + right. eexists. split; [reflexivity|].
      rewrite circle_points_length. unfold default_num_points. lia.
Qed.

Lemma computeOutline_on_sliders_witness :
  in_slider_range (Triangle 4 170 170) /\
  (computeOutline (Triangle 4 170 170) = Ok None <->
   exists base a b, Triangle 4 170 170 = Triangle base a b /\ a + b >= 180).
Proof.
  assert (H : in_slider_range (Triangle 4 170 170)) by (simpl; lra).
  split; [exact H|]. apply (computeOutline_on_sliders (Triangle 4 170 170) H).
Defined.

End GeometryExtras.

(** ** Further facts about the quiz session state *)

Module QuizExtras.
Import Quiz QuizFacts.
Local Open Scope Z_scope.

(** *** Missing counters *)

Lemma incr_missing (k : string) (s : session_state) :
  s !! k = None -> incr k s = KeyError k.
Proof. intros H. unfold incr. rewrite H. reflexivity. Qed.

Lemma init_session_present (s : session_state) :
  is_Some (init_session s !! "score") /\ is_Some (init_session s !! "total").
Proof.
  unfold init_session.
  destruct (s !! "score") as [v|] eqn:Hs.
  - destruct (s !! "total") as [v'|] eqn:Ht.
    + rewrite Hs, Ht. split; eauto.
    + rewrite lookup_insert_ne by discriminate. rewrite Hs, lookup_insert_eq.
      split; eauto.
  - rewrite lookup_insert_ne by discriminate.
    destruct (s !! "total") as [v'|] eqn:Ht.
    + rewrite lookup_insert_eq, lookup_insert_ne by discriminate.
      rewrite Ht. split; eauto.
    + rewrite lookup_insert_ne by discriminate. rewrite !lookup_insert_eq.
      split; eauto.
Qed.

Lemma present_insert (s : session_state) (k key : string) (v : value) :
  is_Some (s !! key) -> is_Some (<[k := v]> s !! key).
Proof.
  intros H. destruct (decide (k = key)) as [->|Hne].
  - rewrite lookup_insert_eq. eauto.
  - rewrite lookup_insert_ne by exact Hne. exact H.
Qed.

Lemma submitAnswer_present (e : submission) (s : session_state) :
  is_Some (s !! "score") -> is_Some (s !! "total") ->
  exists s', submitAnswer e s = Ok s' /\
             is_Some (s' !! "score") /\ is_Some (s' !! "total").
Proof.
  intros Hs Ht. rewrite submitAnswer_unfold.
  destruct (answered s (question_of e)); simpl negb; cbv iota.
  - exists s. auto.
  - destruct Ht as [vt Ht].
    rewrite (incr_ok "total" s vt Ht), py_bind_Ok. cbv zeta.
    set (s2 := <[answered_key (question_of e) := VBool true]>
                 (<["total" := VInt (as_int vt + 1)]> s)).
    assert (Hs2 : is_Some (s2 !! "score")) by (unfold s2; auto using present_insert).
    assert (Ht2 : is_Some (s2 !! "total")).
    { unfold s2. apply present_insert. rewrite lookup_insert_eq. eauto. }
    destruct (is_correct e); [|exists s2; auto].
    destruct Hs2 as [vs Hs2]. rewrite (incr_ok "score" s2 vs Hs2).
    eexists. split; [reflexivity|].
    split; [rewrite lookup_insert_eq; eauto | apply present_insert, Ht2].
Qed.

Lemma submit_all_present (es : list submission) (s : session_state) :
  is_Some (s !! "score") -> is_Some (s !! "total") ->
  exists s', submit_all es s = Ok s' /\
             is_Some (s' !! "score") /\ is_Some (s' !! "total").
Proof.
  revert s. induction es as [|e es IH]; intros s Hs Ht.
  - exists s. auto.
  - destruct (submitAnswer_present e s Hs Ht) as (s1 & Hrun & Hs1 & Ht1).
    destruct (IH s1 Hs1 Ht1) as (s2 & Hrun2 & Hs2 & Ht2).
    exists s2. cbn [submit_all]. rewrite Hrun, py_bind_Ok. auto.
Qed.

(** X12: a handler run on a session state without the counters raises
    [KeyError] (for [total], or for [score] when only that one is missing
    and the answer is correct); because every run of the script first
    creates the missing counters, a session raises nothing, whatever state
    it starts from and whatever is clicked. *)
Theorem run_session_never_raises (ws : list widgets) (s : session_state)
  (e : submission) :
  (answered s (question_of e) = false -> s !! "total" = None ->
   submitAnswer e s = KeyError "total") /\
  (answered s (question_of e) = false -> is_Some (s !! "total") ->
   s !! "score" = None -> is_correct e = true ->
   submitAnswer e s = KeyError "score") /\
  exists s', run_session ws s = Ok s'.
Proof.
  destruct (answered_key_not_counter (question_of e)) as [Hks Hkt].
  split; [|split].
  - intros Hq Ht. rewrite submitAnswer_unfold, Hq. simpl negb. cbv iota.
    rewrite (incr_missing "total" s Ht). reflexivity.
  - intros Hq [vt Ht] Hs Hc. rewrite submitAnswer_unfold, Hq. simpl negb. cbv iota.
    rewrite (incr_ok "total" s vt Ht), py_bind_Ok, Hc. cbv zeta.
    apply incr_missing. rewrite lookup_insert_ne by congruence.
    rewrite lookup_insert_ne by discriminate. exact Hs.
  - revert s. induction ws as [|w ws IH]; intros s; [exists s; reflexivity|].
    cbn [run_session]. rewrite run_quiz_submissions.
    destruct (init_session_present s) as [Hs Ht].
    destruct (submit_all_present (submissions_of w) _ Hs Ht) as (s1 & Hrun & _).
    rewrite Hrun, py_bind_Ok. apply IH.
Qed.


(** *** The placeholder of the answer box *)

(** X13: the placeholder of the answer selectbox equals none of the
    figures, so checking the answer before choosing one counts as a wrong
    answer: [total] grows by 1, [score] does not, the name question is
    marked answered, and no answer submitted afterwards, the right one
    included, changes the state. *)
Theorem placeholder_counts_as_wrong (quiz_choice : string)
  (s : session_state) (sc tot : Z) :
  In quiz_choice quiz_options ->
  counters s sc tot ->
  answered s QName = false ->
  In "선택하세요" answer_options /\
  exists s',
    submitAnswer (SubmitName "선택하세요" quiz_choice) s = Ok s' /\
    counters s' sc (tot + 1) /\
    answered s' QName = true /\
    forall answer, submitAnswer (SubmitName answer quiz_choice) s' = Ok s'.
Proof.
  intros Hin Hc Hq. split; [simpl; auto|].
  assert (Hwrong : is_correct (SubmitName "선택하세요" quiz_choice) = false).
  { simpl in Hin. destruct Hin as [<-|[<-|[<-|[]]]]; reflexivity. }
  destruct (submitAnswer_first_effect (SubmitName "선택하세요" quiz_choice)
              s sc tot Hc Hq) as (s' & Hrun & Hflag & Hc' & _).
  rewrite Hwrong in Hc'.
  exists s'. split; [exact Hrun|]. split; [exact Hc'|].
  assert (Hans : answered s' QName = true) by (apply answered_lookup, Hflag).
  split; [exact Hans|].
  intros answer. apply submitAnswer_again. exact Hans.
Qed.

Lemma placeholder_counts_as_wrong_witness :
  (In "원" quiz_options /\ counters initial_state 0 0 /\
   answered initial_state QName = false) /\
  exists s',
    submitAnswer (SubmitName "선택하세요" "원") initial_state = Ok s' /\
    counters s' 0 (0 + 1) /\
    answered s' QName = true /\
    forall answer, submitAnswer (SubmitName answer "원") s' = Ok s'.
Proof.
  assert (Hin : In "원" quiz_options) by (simpl; auto).
  assert (Hc : counters initial_state 0 0) by (split; reflexivity).
  assert (Hq : answered initial_state QName = false) by reflexivity.
  split; [repeat split; assumption|].
  apply (placeholder_counts_as_wrong "원" initial_state 0 0 Hin Hc Hq).
Defined.

(** *** Order of submissions *)

(** The effect of one submission on every key of the state. *)
Lemma submitAnswer_lookups (e : submission) (s : session_state) (sc tot : Z) :
  counters s sc tot ->
  exists s',
    submitAnswer e s = Ok s' /\
    counters s'
      (sc + (if answered s (question_of e) then 0
             else if is_correct e then 1 else 0))
      (tot + (if answered s (question_of e) then 0 else 1)) /\
    s' !! answered_key (question_of e) =
      (if answered s (question_of e)
       then s !! answered_key (question_of e) else Some (VBool true)) /\
    forall k, k <> "score" -> k <> "total" ->
              k <> answered_key (question_of e) -> s' !! k = s !! k.
Proof.
  intros Hc. destruct (answered s (question_of e)) eqn:Hq.
  - exists s. rewrite (submitAnswer_again e s Hq), !Z.add_0_r. auto.
  - destruct (submitAnswer_first_effect e s sc tot Hc Hq)
      as (s' & Hrun & Hflag & Hc' & Hother).
    exists s'. split; [exact Hrun|]. split.
    + destruct (is_correct e); [exact Hc'|]. rewrite Z.add_0_r. exact Hc'.
    + split; [exact Hflag|]. intros k Hks Hkt Hk. apply Hother; assumption.
Qed.

(** X14: submissions for two different questions commute: whichever is
    handled first, both succeed and the session ends in the same state. *)
Theorem submissions_commute (e1 e2 : submission) (s : session_state) (sc tot : Z) :
  counters s sc tot ->
  question_of e1 <> question_of e2 ->
  exists s',
    submit_all [e1; e2] s = Ok s' /\ submit_all [e2; e1] s = Ok s'.
Proof.
  intros Hc Hne.
  set (q1 := question_of e1) in *. set (q2 := question_of e2) in *.
  assert (Hk : answered_key q1 <> answered_key q2).
  { intros E. apply Hne. apply answered_key_inj. exact E. }
  destruct (answered_key_not_counter q1) as [Hk1s Hk1t].
  destruct (answered_key_not_counter q2) as [Hk2s Hk2t].
  destruct (submitAnswer_lookups e1 s sc tot Hc)
    as (s1 & Hrun1 & Hc1 & Hf1 & Ho1). fold q1 in Hc1, Hf1, Ho1.
  destruct (submitAnswer_lookups e2 s sc tot Hc)
    as (s2 & Hrun2 & Hc2 & Hf2 & Ho2). fold q2 in Hc2, Hf2, Ho2.
  assert (Ha12 : answered s1 q2 = answered s q2).
  { unfold answered, get. rewrite Ho1 by congruence. reflexivity. }
  assert (Ha21 : answered s2 q1 = answered s q1).
  { unfold answered, get. rewrite Ho2 by congruence. reflexivity. }
  destruct (submitAnswer_lookups e2 s1 _ _ Hc1)
    as (s12 & Hrun12 & Hc12 & Hf12 & Ho12). fold q2 in Hc12, Hf12, Ho12.
  destruct (submitAnswer_lookups e1 s2 _ _ Hc2)
    as (s21 & Hrun21 & Hc21 & Hf21 & Ho21). fold q1 in Hc21, Hf21, Ho21.
  rewrite Ha12 in Hc12, Hf12. rewrite Ha21 in Hc21, Hf21.
  assert (E : s12 = s21).
  { apply map_eq. intros k.
    destruct (decide (k = "score")) as [->|Hks].
    { destruct Hc12 as [-> _]. destruct Hc21 as [-> _]. do 2 f_equal. lia. }
    destruct (decide (k = "total")) as [->|Hkt].
    { destruct Hc12 as [_ ->]. destruct Hc21 as [_ ->]. do 2 f_equal. lia. }
    destruct (decide (k = answered_key q1)) as [->|Hkq1].
    { rewrite Ho12 by congruence. rewrite Hf1, Hf21.
      rewrite Ho2 by congruence. reflexivity. }
    destruct (decide (k = answered_key q2)) as [->|Hkq2].
    { rewrite Hf12. rewrite Ho21 by congruence. rewrite Hf2.
      rewrite Ho1 by congruence. reflexivity. }
    rewrite Ho12, Ho1, Ho21, Ho2 by assumption. reflexivity. }
  exists s12. cbn [submit_all].
  rewrite Hrun1, Hrun2, !py_bind_Ok, Hrun12, Hrun21, !py_bind_Ok, E. auto.
Qed.

Lemma submissions_commute_witness :
  (counters initial_state 0 0 /\
   question_of (SubmitName "원" "원") <> question_of (SubmitOx 1 "O" true)) /\
  exists s',
    submit_all [SubmitName "원" "원"; SubmitOx 1 "O" true] initial_state = Ok s' /\
    submit_all [SubmitOx 1 "O" true; SubmitName "원" "원"] initial_state = Ok s'.
Proof.
  assert (Hc : counters initial_state 0 0) by (split; reflexivity).
  assert (Hne : question_of (SubmitName "원" "원")
                <> question_of (SubmitOx 1 "O" true)) by discriminate.
  split; [split; assumption|].
  apply (submissions_commute _ _ initial_state 0 0 Hc Hne).
Defined.


(** *** The number of answered questions *)

(** The flags counted over a list of distinct questions: a first
    submission for one of them adds 1, any other submission adds
    nothing. *)
Lemma count_after_submission (l : list question) (q : question)
  (s s' : session_state) :
  List.NoDup l ->
  answered s q = false -> answered s' q = true ->
  (forall q', q' <> q -> answered s' q' = answered s q') ->
  (~ In q l ->
   fold_right (fun q n => (if answered s' q then 1 else 0) + n) 0 l =
   fold_right (fun q n => (if answered s q then 1 else 0) + n) 0 l) /\
  (In q l ->
   fold_right (fun q n => (if answered s' q then 1 else 0) + n) 0 l =
   fold_right (fun q n => (if answered s q then 1 else 0) + n) 0 l + 1).
Proof.
  intros Hnd Hq Hq' Hother. induction l as [|q0 l IH].
  - split; [reflexivity|]. intros [].
  - inversion Hnd as [|? ? Hnotin Hnd']; subst.
    destruct (IH Hnd') as [IHout IHin]. cbn [fold_right].
    destruct (decide (answered_key q0 = answered_key q)) as [E|Hne].
    + apply answered_key_inj in E. subst q0. rewrite Hq, Hq'. split.
      * intros Hn. exfalso. apply Hn. left. reflexivity.
      * intros _. rewrite (IHout Hnotin). lia.
    + assert (Hne' : q0 <> q) by (intros ->; apply Hne; reflexivity).
      rewrite (Hother q0 Hne'). split.
      * intros Hn. rewrite IHout; [reflexivity|].
        intros Hin. apply Hn. right. exact Hin.
      * intros [E|Hin]; [contradiction|]. rewrite (IHin Hin). lia.
Qed.

Lemma questions_NoDup : List.NoDup questions.
Proof.
  unfold questions. simpl.
  repeat (apply List.NoDup_cons; [simpl; intuition discriminate|]).
  apply List.NoDup_nil.
Qed.

Lemma submissions_of_questions (w : widgets) (e : submission) :
  In e (submissions_of w) -> In (question_of e) questions.
Proof.
  unfold submissions_of, questions. simpl.
  destruct (check_clicked w), (submit_clicked w 1), (submit_clicked w 2),
    (submit_clicked w 3); simpl; intros H;
    repeat (destruct H as [<-|H]; [simpl; tauto|]); destruct H.
Qed.

Lemma answered_count_le (s : session_state) : 0 <= answered_count s <= 4.
Proof.
  unfold answered_count, questions. simpl.
  destruct (answered s QName), (answered s (QOx 1)), (answered s (QOx 2)),
    (answered s (QOx 3)); lia.
Qed.

(** One submission for a question of the page keeps [total] equal to the
    number of flags set. *)
Lemma submitAnswer_count (e : submission) (s : session_state) (sc : Z) :
  In (question_of e) questions ->
  counters s sc (answered_count s) ->
  exists s' sc',
    submitAnswer e s = Ok s' /\ counters s' sc' (answered_count s') /\
    sc <= sc' /\ sc' - sc <= answered_count s' - answered_count s.
Proof.
  intros Hin Hc.
  destruct (submitAnswer_lookups e s sc _ Hc) as (s' & Hrun & Hc' & Hflag & Hother).
  destruct (answered s (question_of e)) eqn:Hq.
  - rewrite (submitAnswer_again e s Hq) in Hrun. injection Hrun as <-.
    exists s, sc. split; [apply submitAnswer_again, Hq|].
    split; [exact Hc|]. lia.
  - assert (Hq' : answered s' (question_of e) = true)
      by (apply answered_lookup, Hflag).
    assert (Hothers : forall q', q' <> question_of e ->
                        answered s' q' = answered s q').
    { intros q' Hne. destruct (answered_key_not_counter q') as [Hks Hkt].
      unfold answered, get. rewrite Hother; try assumption; [reflexivity|].
      intros E. apply Hne. apply answered_key_inj. exact E. }
    assert (Hcount : answered_count s' = answered_count s + 1).
    { unfold answered_count.
      apply (count_after_submission questions (question_of e) s s'
               questions_NoDup Hq Hq' Hothers). exact Hin. }
    exists s', (sc + (if is_correct e then 1 else 0)).
    split; [exact Hrun|]. rewrite Hcount. split; [exact Hc'|].
    destruct (is_correct e); lia.
Qed.

Lemma submit_all_count (es : list submission) (s : session_state) (sc : Z) :
  (forall e, In e es -> In (question_of e) questions) ->
  counters s sc (answered_count s) ->
  exists s' sc',
    submit_all es s = Ok s' /\ counters s' sc' (answered_count s') /\
    sc <= sc' /\ sc' - sc <= answered_count s' - answered_count s.
Proof.
  revert s sc. induction es as [|e es IH]; intros s sc Hes Hc.
  - exists s, sc. split; [reflexivity|]. split; [exact Hc|]. lia.
  - destruct (submitAnswer_count e s sc (Hes e (or_introl eq_refl)) Hc)
      as (s1 & sc1 & Hrun1 & Hc1 & Hs1 & Hd1).
    destruct (IH s1 sc1 (fun e' H => Hes e' (or_intror H)) Hc1)
      as (s2 & sc2 & Hrun2 & Hc2 & Hs2 & Hd2).
    exists s2, sc2. cbn [submit_all]. rewrite Hrun1, py_bind_Ok.
    split; [exact Hrun2|]. split; [exact Hc2|]. lia.
Qed.

Lemma run_session_count (ws : list widgets) (s : session_state) (sc : Z) :
  counters s sc (answered_count s) ->
  exists s' sc',
    run_session ws s = Ok s' /\ counters s' sc' (answered_count s') /\
    sc <= sc' /\ sc' - sc <= answered_count s' - answered_count s.
Proof.
  revert s sc. induction ws as [|w ws IH]; intros s sc Hc.
  - exists s, sc. split; [reflexivity|]. split; [exact Hc|]. lia.
  - cbn [run_session].
    rewrite run_quiz_submissions, (init_session_id s _ _ Hc).
    destruct (submit_all_count (submissions_of w) s sc
                (submissions_of_questions w) Hc)
      as (s1 & sc1 & Hrun1 & Hc1 & Hs1 & Hd1).
    destruct (IH s1 sc1 Hc1) as (s2 & sc2 & Hrun2 & Hc2 & Hs2 & Hd2).
    exists s2, sc2. rewrite Hrun1, py_bind_Ok.
    split; [exact Hrun2|]. split; [exact Hc2|]. lia.
Qed.

(** X15: in a session that starts from the empty session state, after
    any number of runs of the script [total] is the number of questions
    answered so far; so [score <= total <= 4], the number of questions on
    the page, however often the buttons are clicked. *)
Theorem session_total_is_answered_count (w : widgets) (ws : list widgets) :
  exists s sc tot,
    run_session (w :: ws) ∅ = Ok s /\
    counters s sc tot /\
    tot = answered_count s /\
    0 <= sc <= tot /\ tot <= 4.
Proof.
  assert (Hc0 : counters initial_state 0 (answered_count initial_state))
    by (split; reflexivity).
  destruct (run_session_count (w :: ws) initial_state 0 Hc0)
    as (s & sc & Hrun & Hc & Hs & Hd).
  exists s, sc, (answered_count s).
  split.
  - cbn [run_session] in Hrun |- *. rewrite run_quiz_submissions in Hrun |- *.
    rewrite (init_session_id initial_state _ _ Hc0) in Hrun. exact Hrun.
  - split; [exact Hc|]. split; [reflexivity|].
    pose proof (answered_count_le s) as Hle.
    assert (H0 : answered_count initial_state = 0) by reflexivity.
    lia.
Qed.

End QuizExtras.
